(** * CYNERZA/Cyne: the CLI demo [test3.py] and the VS Code tool wrappers
      [toolstobe.py], embedded and verified.

    Part I embeds the two source files.
    - [Py] and [PyJson] hold the pieces of the Python runtime the code
      relies on: decimal rendering of integers, [int()] on a string,
      and, for a decoded JSON value, [str()], [dict.get], [len],
      truthiness, slicing, iteration and the [d] format.
    - [Test3] is the command line script, a function from [sys.argv] to
      what is printed.
    - [Toolstobe] is the tool module.  Every call that leaves the module
      (subprocess, HTTP, socket, permission manager, console) is an
      effect of a small free monad with exceptions; a run against a
      [World], which answers each call, gives the returned value and the
      trace of the calls made.
    - [Obs] is the vocabulary of the properties: a weakest precondition
      over all answers, sample worlds, and observations on traces.
    Part II states and proves the properties.

    Boundaries of the model: JSON numbers are integers (no floats);
    text is UTF-8 bytes, [int()] reads ASCII digits and spaces only, and
    [str.lower()] and [repr()] leave bytes outside ASCII as they are;
    exceptions are instances of [Exception]; [console.print] of a string
    or of a panel around a string does not fail. *)

From Stdlib Require Import ZArith String Ascii List Bool Lia DecimalString Decimal.
Import ListNotations.
Set Warnings "-register-all".
Local Open Scope string_scope.
Local Open Scope Z_scope.

(* ===================================================================== *)
(** * Part I.a  Python runtime helpers *)
(* ===================================================================== *)

Module Py.

(** [str(n)] for an [int]: decimal digits, a leading [-] when negative.
    CPython's optional cap on the number of digits converted
    ([sys.set_int_max_str_digits]) is not part of the model. *)
Definition str_of_int (n : Z) : string := NilZero.string_of_int (Z.to_int n).

Fixpoint spaces (n : nat) : string :=
  match n with
  | O => ""
  | S k => String " " (spaces k)
  end.

(** [format(n, '<w>d')]: right-justified in a field of [w] characters. *)
Definition format_d (w : nat) (n : Z) : string :=
  let s := str_of_int n in spaces (w - String.length s) ++ s.

Definition newline : string := String (ascii_of_nat 10) "".

Fixpoint join (sep : string) (l : list string) : string :=
  match l with
  | [] => ""
  | [s] => s
  | s :: rest => s ++ sep ++ join sep rest
  end.

(** ** [int(s)]

    Base-10 parsing as CPython does it on ASCII text: white space (tab,
    newline, vertical tab, form feed, carriage return, space) is
    stripped from both ends, one sign is allowed, and the digits may be
    grouped with single underscores.  Digits and spaces outside ASCII,
    which CPython also accepts, are not modelled: command line arguments
    are taken to be ASCII. *)

Definition is_space (c : ascii) : bool :=
  let n := nat_of_ascii c in
  (((9 <=? n) && (n <=? 13)) || (n =? 32))%nat.

Definition digit_val (c : ascii) : option Z :=
  let n := nat_of_ascii c in
  if ((48 <=? n) && (n <=? 57))%nat then Some (Z.of_nat n - 48) else None.

Fixpoint lstrip (s : string) : string :=
  match s with
  | String c r => if is_space c then lstrip r else s
  | EmptyString => s
  end.

Fixpoint rev_append (s acc : string) : string :=
  match s with
  | EmptyString => acc
  | String c r => rev_append r (String c acc)
  end.

Definition rev (s : string) : string := rev_append s "".

Definition strip (s : string) : string := rev (lstrip (rev (lstrip s))).

(** Digits with single underscores between them; [prev] tells whether the
    previous character was a digit. *)
Fixpoint parse_digits (acc : Z) (prev : bool) (s : string) : option Z :=
  match s with
  | EmptyString => if prev then Some acc else None
  | String c r =>
      match digit_val c with
      | Some d => parse_digits (10 * acc + d) true r
      | None =>
          if (Ascii.eqb c "_" && prev)%bool then parse_digits acc false r
          else None
      end
  end.

(** [int(s)]: [None] stands for [ValueError]. *)
Definition int (s : string) : option Z :=
  match strip s with
  | String "-" r => option_map Z.opp (parse_digits 0 false r)
  | String "+" r => parse_digits 0 false r
  | r => parse_digits 0 false r
  end.

End Py.

(* ===================================================================== *)
(** * Part I.b  [test3.py] *)
(* ===================================================================== *)

Module Test3.

(** Standard output is modelled as the list of the texts handed to
    [print], one element per call ([print] ends each with a newline). *)
Definition stdout := list string.

Definition print (s : string) : stdout := [s].

Definition greet (name : string) : stdout :=
  print ("Hello, " ++ name ++ "!").

Definition add (a b : Z) : stdout :=
  print (Py.str_of_int a ++ " + " ++ Py.str_of_int b ++ " = " ++ Py.str_of_int (a + b)).

Definition usage : string :=
  "Usage: python3 test3.py -p <name> OR python3 test3.py add <a> <b>".

Definition not_integers : string :=
  "Please provide two integers for addition.".

(** [sys.argv[i]]; every use below is guarded by a length test, so the
    default is never observed. *)
Definition argv_at (argv : list string) (i : nat) : string := nth i argv "".

(** The body under [if __name__ == "__main__":], as a function of
    [sys.argv]. *)
Definition main (argv : list string) : stdout :=
  if (1 <? length argv)%nat then
    if (argv_at argv 1 =? "-p")%string && (2 <? length argv)%nat then
      greet (argv_at argv 2)
    else if (argv_at argv 1 =? "add")%string && (3 <? length argv)%nat then
      match Py.int (argv_at argv 2) with
      | None => print not_integers
      | Some a =>
          match Py.int (argv_at argv 3) with
          | None => print not_integers
          | Some b => add a b
          end
      end
    else print usage
  else print usage.

End Test3.

(* ===================================================================== *)
(** * Part I.c  Decoded JSON values and the Python operations on them *)
(* ===================================================================== *)

(** What [response.json()] returns.  Strings are kept as UTF-8 bytes.  A
    decoded object is a [dict]: its keys are distinct and keep the order
    of the document.  JSON numbers with a fraction or an exponent decode
    to floats, which are not modelled: numbers are integers. *)
Inductive json : Type :=
| JNull
| JBool (b : bool)
| JInt (n : Z)
| JStr (s : string)
| JArr (items : list json)
| JObj (fields : list (string * json)).

(** Exceptions.  [VSCodeAvailabilityError] is the module's own class;
    [Exception cls msg] is any other [Exception] with its class name and
    its [str()].  Signals that are not [Exception]s ([KeyboardInterrupt],
    [SystemExit]) are outside the model. *)
Inductive exn : Type :=
| VSCodeAvailabilityError (msg : string)
| Exception (cls : string) (msg : string).

Definition exn_str (e : exn) : string :=
  match e with
  | VSCodeAvailabilityError msg => msg
  | Exception _ msg => msg
  end.

Module PyJson.

Definition type_name (v : json) : string :=
  match v with
  | JNull => "NoneType"
  | JBool _ => "bool"
  | JInt _ => "int"
  | JStr _ => "str"
  | JArr _ => "list"
  | JObj _ => "dict"
  end.

Definition hex_digit (n : nat) : ascii :=
  if (n <? 10)%nat then ascii_of_nat (48 + n) else ascii_of_nat (87 + n).

Definition quote1 : ascii := "'".
Definition quote2 : ascii := ascii_of_nat 34.
Definition backslash : ascii := ascii_of_nat 92.

Fixpoint has_char (c : ascii) (s : string) : bool :=
  match s with
  | EmptyString => false
  | String d r => Ascii.eqb c d || has_char c r
  end.

(** The body of [repr(s)] for quote character [q].  Bytes above 127 are
    parts of UTF-8 sequences and are kept: code points outside ASCII are
    taken to be printable. *)
Fixpoint repr_body (q : ascii) (s : string) : string :=
  match s with
  | EmptyString => ""
  | String c r =>
      let n := nat_of_ascii c in
      let rest := repr_body q r in
      if Ascii.eqb c backslash then String backslash (String backslash rest)
      else if Ascii.eqb c q then String backslash (String q rest)
      else if (n =? 10)%nat then String backslash (String "n" rest)
      else if (n =? 13)%nat then String backslash (String "r" rest)
      else if (n =? 9)%nat then String backslash (String "t" rest)
      else if ((n <? 32) || (n =? 127))%nat then
        String backslash (String "x" (String (hex_digit (n / 16)) (String (hex_digit (n mod 16)) rest)))
      else String c rest
  end.

Definition repr_str (s : string) : string :=
  let q := if has_char quote1 s && negb (has_char quote2 s) then quote2 else quote1 in
  String q (repr_body q s ++ String q "").

(** [repr(v)] *)
Fixpoint repr (v : json) : string :=
  match v with
  | JNull => "None"
  | JBool true => "True"
  | JBool false => "False"
  | JInt n => Py.str_of_int n
  | JStr s => repr_str s
  | JArr items => "[" ++ Py.join ", " (map repr items) ++ "]"
  | JObj fields =>
      "{" ++ Py.join ", " (map (fun kv => repr_str (fst kv) ++ ": " ++ repr (snd kv)) fields) ++ "}"
  end.

(** [str(v)], which is what an f-string field [{v}] renders. *)
Definition str (v : json) : string :=
  match v with
  | JStr s => s
  | _ => repr v
  end.

(** [bool(v)] *)
Definition truthy (v : json) : bool :=
  match v with
  | JNull => false
  | JBool b => b
  | JInt n => negb (n =? 0)
  | JStr s => negb (s =? "")%string
  | JArr items => match items with [] => false | _ => true end
  | JObj fields => match fields with [] => false | _ => true end
  end.

Fixpoint lookup (key : string) (fields : list (string * json)) : option json :=
  match fields with
  | [] => None
  | (k, v) :: rest => if (k =? key)%string then Some v else lookup key rest
  end.

Definition attribute_error (v : json) (attr : string) : exn :=
  Exception "AttributeError"
    ("'" ++ type_name v ++ "' object has no attribute '" ++ attr ++ "'").

(** [v.get(key, default)] *)
Definition get (v : json) (key : string) (default : json) : exn + json :=
  match v with
  | JObj fields =>
      inr (match lookup key fields with Some x => x | None => default end)
  | _ => inl (attribute_error v "get")
  end.

(** The code points of a UTF-8 string, each as a string of its own. *)
Definition is_continuation (c : ascii) : bool :=
  let n := nat_of_ascii c in ((128 <=? n) && (n <? 192))%nat.

Fixpoint chars (s : string) : list string :=
  match s with
  | EmptyString => []
  | String c r =>
      let l := chars r in
      match r, l with
      | String d _, h :: t => if is_continuation d then String c h :: t else String c "" :: l
      | _, _ => String c "" :: l
      end
  end.

(** [len(v)] *)
Definition len (v : json) : exn + Z :=
  match v with
  | JStr s => inr (Z.of_nat (length (chars s)))
  | JArr items => inr (Z.of_nat (length items))
  | JObj fields => inr (Z.of_nat (length fields))
  | _ => inl (Exception "TypeError" ("object of type '" ++ type_name v ++ "' has no len()"))
  end.

(** The elements a [for] loop (or [enumerate]) draws from [v]. *)
Definition iterate (v : json) : exn + list json :=
  match v with
  | JStr s => inr (map JStr (chars s))
  | JArr items => inr items
  | JObj fields => inr (map (fun kv => JStr (fst kv)) fields)
  | _ => inl (Exception "TypeError" ("'" ++ type_name v ++ "' object is not iterable"))
  end.

(** [v[:n]].  Slicing a [dict] raises [TypeError] up to CPython 3.11 (a
    slice is not hashable); that is the behaviour modelled. *)
Definition slice_to (n : nat) (v : json) : exn + json :=
  match v with
  | JStr s => inr (JStr (String.concat "" (firstn n (chars s))))
  | JArr items => inr (JArr (firstn n items))
  | JObj _ => inl (Exception "TypeError" "unhashable type: 'slice'")
  | _ => inl (Exception "TypeError" ("'" ++ type_name v ++ "' object is not subscriptable"))
  end.

(** The integer behind a value usable as a number ([bool] is an [int]). *)
Definition as_int (v : json) : option Z :=
  match v with
  | JInt n => Some n
  | JBool b => Some (Z.b2z b)
  | _ => None
  end.

(** [v == k] for an integer literal [k] *)
Definition eq_int (v : json) (k : Z) : bool :=
  match as_int v with
  | Some n => n =? k
  | None => false
  end.

(** [v > k] for an integer literal [k] *)
Definition gt_int (v : json) (k : Z) : exn + bool :=
  match as_int v with
  | Some n => inr (k <? n)
  | None =>
      inl (Exception "TypeError"
             ("'>' not supported between instances of '" ++ type_name v ++ "' and 'int'"))
  end.

(** [v - k] for an integer literal [k] *)
Definition sub_int (v : json) (k : Z) : exn + json :=
  match as_int v with
  | Some n => inr (JInt (n - k))
  | None =>
      inl (Exception "TypeError"
             ("unsupported operand type(s) for -: '" ++ type_name v ++ "' and 'int'"))
  end.

(** [v != s] for a string literal [s] *)
Definition ne_str (v : json) (s : string) : bool :=
  match v with
  | JStr t => negb (t =? s)%string
  | _ => true
  end.

(** [format(v, '<w>d')], the f-string field [{v:<w>d}] *)
Definition format_d (w : nat) (v : json) : exn + string :=
  match v with
  | JInt n => inr (Py.format_d w n)
  | JBool b => inr (Py.format_d w (Z.b2z b))
  | JStr _ => inl (Exception "ValueError" "Unknown format code 'd' for object of type 'str'")
  | _ =>
      inl (Exception "TypeError"
             ("unsupported format string passed to " ++ type_name v ++ ".__format__"))
  end.

(** [s.lower()]; letters outside ASCII are left as they are. *)
Definition lower_ascii (c : ascii) : ascii :=
  let n := nat_of_ascii c in
  if ((65 <=? n) && (n <=? 90))%nat then ascii_of_nat (n + 32) else c.

Fixpoint lower_str (s : string) : string :=
  match s with
  | EmptyString => ""
  | String c r => String (lower_ascii c) (lower_str r)
  end.

Definition lower (v : json) : exn + string :=
  match v with
  | JStr s => inr (lower_str s)
  | _ => inl (attribute_error v "lower")
  end.

(** [s.split(sep)] for a one-character separator *)
Fixpoint split (sep : ascii) (s : string) : list string :=
  match s with
  | EmptyString => [""]
  | String c r =>
      let l := split sep r in
      if Ascii.eqb c sep then "" :: l
      else match l with
           | h :: t => String c h :: t
           | [] => [String c ""]
           end
  end.

(** [name.split('.')[-1] if '.' in name else 'txt'] *)
Definition file_ext (name : string) : string :=
  if has_char "." name then last (split "." name) "" else "txt".

End PyJson.
(* ===================================================================== *)
(** * Part I.d  [toolstobe.py]: effects, programs and runs *)
(* ===================================================================== *)

Module Toolstobe.

(** ** What the module talks to *)

(** The two members of [PermissionType] the module uses. *)
Inductive PermissionType : Type := FILE_OPERATIONS | FILE_WRITE.

(** A [requests.Response]: its status code and what [response.json()]
    does (returns the decoded body or raises). *)
Record Response : Type := { status_code : Z; json_body : exn + json }.

(** What [console.print] is given: a string with Rich markup or a [Panel]
    around one.  Printing these cannot fail. *)
Inductive renderable : Type :=
| Markup (text : string)
| Panel (body : string) (title border_style : string).

(** Renderables built from data: a [Panel] around
    [Syntax(code, lexer, theme="monokai", line_numbers=True)], or around a
    value read from a response.  Building and printing these may raise. *)
Inductive data_renderable : Type :=
| SyntaxPanel (code : json) (lexer : string) (title border_style : string)
| ValuePanel (body : json) (title border_style : string).

(** The calls that leave the module, indexed by what they give back;
    [inl e] is the call raising [e]. *)
Inductive Eff : Type -> Type :=
| subprocess_run (args : list string) (timeout : Z) : Eff (exn + Z)
| requests_get (url : string) (params : list (string * json))
    (headers : option (list (string * string))) (timeout : Z) : Eff (exn + Response)
| requests_post (url : string) (body : json)
    (headers : option (list (string * string))) (timeout : Z) : Eff (exn + Response)
| socket_socket : Eff (exn + unit)
| sock_connect_ex (host : string) (port : Z) (timeout : Z) : Eff (exn + Z)
| sock_close : Eff (exn + unit)
| get_permission (ptype : PermissionType) (description : string) : Eff (exn + bool)
| console_print (r : renderable) : Eff unit
| console_print_data (r : data_renderable) : Eff (exn + unit).

(** A call together with its outcome, as recorded in a trace. *)
Inductive event : Type :=
| EvSubprocess (args : list string) (timeout : Z) (res : exn + Z)
| EvGet (url : string) (params : list (string * json))
    (headers : option (list (string * string))) (timeout : Z) (res : exn + Response)
| EvPost (url : string) (body : json)
    (headers : option (list (string * string))) (timeout : Z) (res : exn + Response)
| EvSocket (res : exn + unit)
| EvConnect (host : string) (port : Z) (timeout : Z) (res : exn + Z)
| EvClose (res : exn + unit)
| EvPermission (ptype : PermissionType) (description : string) (res : exn + bool)
| EvPrint (r : renderable)
| EvPrintData (r : data_renderable) (res : exn + unit).

Definition record {X : Type} (c : Eff X) : X -> event :=
  match c in Eff T return T -> event with
  | subprocess_run args t => EvSubprocess args t
  | requests_get url params headers t => EvGet url params headers t
  | requests_post url body headers t => EvPost url body headers t
  | socket_socket => EvSocket
  | sock_connect_ex host port t => EvConnect host port t
  | sock_close => EvClose
  | get_permission ptype d => EvPermission ptype d
  | console_print r => fun _ => EvPrint r
  | console_print_data r => EvPrintData r
  end.

(** ** Programs *)

(** A program either returns, raises, or makes a call and goes on with
    its outcome. *)
Inductive Prog (A : Type) : Type :=
| Ret (a : A)
| Raise (e : exn)
| Vis {X : Type} (c : Eff X) (k : X -> Prog A).

Arguments Ret {A} a.
Arguments Raise {A} e.
Arguments Vis {A X} c k.

Fixpoint bind {A B : Type} (p : Prog A) (f : A -> Prog B) : Prog B :=
  match p with
  | Ret a => f a
  | Raise e => Raise e
  | Vis c k => Vis c (fun x => bind (k x) f)
  end.

(** [try: p  except: h] (every exception of the model is caught). *)
Fixpoint try_except {A : Type} (p : Prog A) (h : exn -> Prog A) : Prog A :=
  match p with
  | Ret a => Ret a
  | Raise e => h e
  | Vis c k => Vis c (fun x => try_except (k x) h)
  end.

(** A value that is there, or the exception raised while computing it. *)
Definition lift {A : Type} (r : exn + A) : Prog A :=
  match r with
  | inl e => Raise e
  | inr a => Ret a
  end.

(** A call that may raise. *)
Definition call {A : Type} (c : Eff (exn + A)) : Prog A := Vis c lift.

(** A call that cannot. *)
Definition exec {A : Type} (c : Eff A) : Prog A := Vis c Ret.

Notation "x <- p ;; q" := (bind p (fun x => q))
  (at level 61, p at next level, right associativity).
Notation "p ;; q" := (bind p (fun _ => q))
  (at level 61, right associativity).

(** ** Runs *)

(** The world answers every call; the answer may depend on how many calls
    were made before it. *)
Definition World : Type := nat -> forall X : Type, Eff X -> X.

(** [run w n p]: the calls [p] makes, in order, from time [n] on, and how
    [p] ends. *)
Fixpoint run {A : Type} (w : World) (n : nat) (p : Prog A) : list event * (exn + A) :=
  match p with
  | Ret a => ([], inr a)
  | Raise e => ([], inl e)
  | Vis c k =>
      let x := w n _ c in
      let r := run w (S n) (k x) in
      (record c x :: fst r, snd r)
  end.

Definition trace {A : Type} (w : World) (p : Prog A) : list event := fst (run w O p).
Definition result {A : Type} (w : World) (p : Prog A) : exn + A := snd (run w O p).

(** ** Configuration *)

Definition VSCODE_HTTP_URL : string := "http://localhost:8090".

Definition HEADERS : list (string * string) :=
  [("User-Agent", "Nutaan-Agent/1.0");
   ("Accept", "application/json");
   ("Content-Type", "application/json")].

(** The glyph sequences of the source's string literals, byte for byte. *)
Definition cross : string := "‚ùå".
Definition tick : string := "‚úÖ".
Definition arrow : string := "‚Üí".
Definition page : string := "üìÑ".

Definition nl : string := Py.newline.

(** ** Availability *)

Definition check_code_command : Prog bool :=
  try_except
    (returncode <- call (subprocess_run ["code"; "--version"] 5) ;;
     Ret (returncode =? 0))
    (fun _ => Ret false).

Definition check_vscode_api : Prog bool :=
  try_except
    (response <- call (requests_get (VSCODE_HTTP_URL ++ "/health") [] None 3) ;;
     Ret (status_code response =? 200))
    (fun _ =>
       try_except
         (call socket_socket ;;
          res <- call (sock_connect_ex "localhost" 8090 2) ;;
          call sock_close ;;
          Ret (res =? 0))
         (fun _ => Ret false)).

Definition msg_neither : string :=
  cross ++ " VS Code command not found and API not accessible on localhost:8090".
Definition msg_no_command : string :=
  cross ++ " VS Code command not found (install VS Code and ensure 'code' is in PATH)".
Definition msg_no_api : string :=
  cross ++ " VS Code extension API not accessible on localhost:8090".
Definition msg_available : string :=
  tick ++ " VS Code is available and connected".

(** The [if]/[elif] chain of [check_vscode_availability]. *)
Definition availability_status (code_available api_available : bool) : bool * string :=
  if negb code_available && negb api_available then (false, msg_neither)
  else if negb code_available then (false, msg_no_command)
  else if negb api_available then (false, msg_no_api)
  else (true, msg_available).

Definition check_vscode_availability : Prog (bool * string) :=
  code_available <- check_code_command ;;
  api_available <- check_vscode_api ;;
  Ret (availability_status code_available api_available).

Definition ensure_vscode_available : Prog unit :=
  status <- check_vscode_availability ;;
  if negb (fst status) then Raise (VSCodeAvailabilityError (snd status))
  else Ret tt.

(** ** Display helpers *)

Definition error_panel (error_msg : string) : renderable :=
  Panel ("[red]" ++ error_msg ++ "[/red]") "[red]VS Code Error[/red]" "red".

Definition success_panel (success_msg : string) : renderable :=
  Panel ("[green]" ++ success_msg ++ "[/green]") "[green]VS Code Success[/green]" "green".

Definition display_rich_error (error_msg : string) : Prog string :=
  exec (console_print (error_panel error_msg)) ;;
  Ret error_msg.

Definition display_rich_success (success_msg : string) : Prog string :=
  exec (console_print (success_panel success_msg)) ;;
  Ret success_msg.

(** The two [except] clauses every guarded tool ends with:
    [except VSCodeAvailabilityError as e] shows [str(e)], and
    [except Exception as e] shows [prefix] followed by [str(e)]. *)
Definition except_clauses (prefix : string) (e : exn) : Prog string :=
  match e with
  | VSCodeAvailabilityError msg => display_rich_error msg
  | Exception _ msg => display_rich_error (prefix ++ msg)
  end.

(** [try: Syntax panel  except: fallback] *)
Definition print_syntax_or (code : json) (lexer : exn + string)
    (title border_style : string) (fallback : Prog unit) : Prog unit :=
  try_except
    (lx <- lift lexer ;;
     call (console_print_data (SyntaxPanel code lx title border_style)))
    (fun _ => fallback).


(** ** The tools *)

Definition vscode_get_context : Prog string :=
  try_except
    (ensure_vscode_available ;;
     response <- call (requests_get (VSCODE_HTTP_URL ++ "/context") [] (Some HEADERS) 10) ;;
     if status_code response =? 200 then
       context <- lift (json_body response) ;;
       active_file <- lift (PyJson.get context "activeFile" (JStr "None")) ;;
       language <- lift (PyJson.get context "language" (JStr "Unknown")) ;;
       workspace <- lift (PyJson.get context "workspace" (JStr "None")) ;;
       selection <- lift (PyJson.get context "selection" (JObj [])) ;;
       text <- lift (PyJson.get selection "text" (JStr "No selection")) ;;
       open_tabs <- lift (PyJson.get context "openTabs" (JArr [])) ;;
       n_tabs <- lift (PyJson.len open_tabs) ;;
       let context_info :=
         "[bold cyan]VS Code Context:[/bold cyan]" ++ nl
         ++ "[bold]Active File:[/bold] " ++ PyJson.str active_file ++ nl
         ++ "[bold]Language:[/bold] " ++ PyJson.str language ++ nl
         ++ "[bold]Workspace:[/bold] " ++ PyJson.str workspace ++ nl
         ++ "[bold]Selection:[/bold] " ++ PyJson.str text ++ nl
         ++ "[bold]Open Tabs:[/bold] " ++ Py.str_of_int n_tabs ++ " tabs" in
       exec (console_print (Panel context_info "[cyan]VS Code Context[/cyan]" "cyan")) ;;
       Ret context_info
     else
       display_rich_error
         ("Error getting VS Code context: HTTP " ++ Py.str_of_int (status_code response)))
    (except_clauses "Error getting VS Code context: ").

(** One turn of the loop over the context lines: the text it appends. *)
Definition context_line (line_info : json) : exn + string :=
  match PyJson.get line_info "lineNumber" (JInt 0) with
  | inl e => inl e
  | inr line_num =>
      match PyJson.get line_info "content" (JStr ""),
            PyJson.get line_info "isSelected" (JBool false) with
      | inr content, inr is_selected =>
          match PyJson.format_d 3 line_num with
          | inl e => inl e
          | inr num =>
              if PyJson.truthy is_selected then
                inr ("[bold yellow]" ++ arrow ++ " " ++ num ++ ":[/bold yellow] "
                     ++ PyJson.str content ++ nl)
              else
                inr ("   " ++ num ++ ": " ++ PyJson.str content ++ nl)
          end
      | inl e, _ => inl e
      | _, inl e => inl e
      end
  end.

(** The loop: [context_display] after all of [lines], or the first
    exception. *)
Fixpoint context_lines (context_display : string) (lines : list json) : exn + string :=
  match lines with
  | [] => inr context_display
  | line_info :: rest =>
      match context_line line_info with
      | inl e => inl e
      | inr s => context_lines (context_display ++ s) rest
      end
  end.

Definition selection_done : string := "VS Code selection context displayed above".

Definition vscode_get_selection : Prog string :=
  try_except
    (ensure_vscode_available ;;
     response <- call (requests_get (VSCODE_HTTP_URL ++ "/selection-context") [] (Some HEADERS) 10) ;;
     if status_code response =? 200 then
       context <- lift (json_body response) ;;
       has_editor <- lift (PyJson.get context "hasActiveEditor" (JBool false)) ;;
       if negb (PyJson.truthy has_editor) then
         display_rich_error "No active editor in VS Code"
       else
         selection <- lift (PyJson.get context "selection" (JObj [])) ;;
         file_info <- lift (PyJson.get context "activeFile" (JStr "Unknown file")) ;;
         language <- lift (PyJson.get context "language" (JStr "Unknown")) ;;
         context_info <- lift (PyJson.get context "context" (JObj [])) ;;
         total_lines <- lift (PyJson.get context_info "totalLines" (JStr "Unknown")) ;;
         start_line <- lift (PyJson.get selection "startLine" (JStr "Unknown")) ;;
         end_line <- lift (PyJson.get selection "endLine" (JStr "Unknown")) ;;
         start_column <- lift (PyJson.get selection "startColumn" (JStr "Unknown")) ;;
         end_column <- lift (PyJson.get selection "endColumn" (JStr "Unknown")) ;;
         let selection_text :=
           "[bold]File:[/bold] " ++ PyJson.str file_info ++ nl
           ++ "[bold]Language:[/bold] " ++ PyJson.str language ++ nl
           ++ "[bold]Total Lines:[/bold] " ++ PyJson.str total_lines ++ nl
           ++ "[bold]Selection Lines:[/bold] " ++ PyJson.str start_line
           ++ " to " ++ PyJson.str end_line ++ nl
           ++ "[bold]Columns:[/bold] " ++ PyJson.str start_column
           ++ " to " ++ PyJson.str end_column in
         exec (console_print (Panel selection_text "[yellow]Selection Info[/yellow]" "yellow")) ;;
         selected_text <- lift (PyJson.get selection "text" (JStr "No selection")) ;;
         (if PyJson.ne_str selected_text "No selection" then
            print_syntax_or selected_text (PyJson.lower language)
              "[green]Selected Code[/green]" "green"
              (call (console_print_data
                       (ValuePanel selected_text "[green]Selected Text[/green]" "green")))
          else Ret tt) ;;
         lines <- lift (PyJson.get context_info "lines" (JArr [])) ;;
         (if PyJson.truthy lines then
            line_infos <- lift (PyJson.iterate lines) ;;
            context_display <- lift (context_lines "" line_infos) ;;
            exec (console_print (Panel context_display "[blue]Context Lines[/blue]" "blue"))
          else Ret tt) ;;
         Ret selection_done
     else
       display_rich_error
         ("Error getting selection context: HTTP " ++ Py.str_of_int (status_code response)))
    (except_clauses "Error getting selection context: ").

(** [files_display] and [truncated_msg] of [vscode_list_files]. *)
Definition files_display (files total : json) : exn + (json * string) :=
  match PyJson.gt_int total 50 with
  | inl e => inl e
  | inr true =>
      match PyJson.slice_to 50 files with
      | inl e => inl e
      | inr shown =>
          match PyJson.sub_int total 50 with
          | inl e => inl e
          | inr more =>
              inr (shown, nl ++ "[dim]... and " ++ PyJson.str more ++ " more files[/dim]")
          end
      end
  | inr false => inr (files, "")
  end.

(** [f"{i+1:2d}. {file}" for i, file in enumerate(...)], from index [i]. *)
Fixpoint numbered (i : nat) (entries : list json) : list string :=
  match entries with
  | [] => []
  | file :: rest =>
      (Py.format_d 2 (Z.of_nat i + 1) ++ ". " ++ PyJson.str file) :: numbered (S i) rest
  end.

Definition files_info (pattern : string) (total : json) (entries : list json)
    (truncated_msg : string) : string :=
  "[bold]Pattern:[/bold] " ++ pattern ++ nl
  ++ "[bold]Total Found:[/bold] " ++ PyJson.str total ++ nl ++ nl
  ++ Py.join nl (numbered 0 entries) ++ truncated_msg.

Definition files_found (pattern : string) (total : json) : string :=
  "Found " ++ PyJson.str total ++ " files matching pattern '" ++ pattern
  ++ "' (displayed in panel above)".

Definition vscode_list_files (pattern : string) : Prog string :=
  try_except
    (ensure_vscode_available ;;
     response <- call (requests_get (VSCODE_HTTP_URL ++ "/workspace/files")
                         [("pattern", JStr pattern)] (Some HEADERS) 10) ;;
     if status_code response =? 200 then
       data <- lift (json_body response) ;;
       files <- lift (PyJson.get data "files" (JArr [])) ;;
       total <- lift (PyJson.get data "total" (JInt 0)) ;;
       if PyJson.eq_int total 0 then
         display_rich_error ("No files found matching pattern '" ++ pattern ++ "'")
       else
         shown <- lift (files_display files total) ;;
         entries <- lift (PyJson.iterate (fst shown)) ;;
         exec (console_print
                 (Panel (files_info pattern total entries (snd shown))
                    "[cyan]Workspace Files[/cyan]" "cyan")) ;;
         Ret (files_found pattern total)
     else
       display_rich_error
         ("Error listing workspace files: HTTP " ++ Py.str_of_int (status_code response)))
    (except_clauses "Error listing workspace files: ").

Definition vscode_read_file (file_path : string) (start_line : Z) (end_line : option Z)
    : Prog string :=
  try_except
    (ensure_vscode_available ;;
     allowed <- call (get_permission FILE_OPERATIONS ("Read file: " ++ file_path)) ;;
     if negb allowed then
       display_rich_error "Permission denied for file read operation"
     else
       let params :=
         ([("path", JStr file_path); ("startLine", JInt start_line)]
          ++ match end_line with
             | Some e => [("endLine", JInt e)]
             | None => []
             end)%list in
       response <- call (requests_get (VSCODE_HTTP_URL ++ "/file/read") params (Some HEADERS) 10) ;;
       if status_code response =? 200 then
         data <- lift (json_body response) ;;
         content <- lift (PyJson.get data "content" (JStr "No content")) ;;
         let title := "[green]" ++ file_path ++ "[/green]" in
         print_syntax_or content (inr (PyJson.file_ext file_path)) title "green"
           (call (console_print_data (ValuePanel content title "green"))) ;;
         Ret ("File content for " ++ file_path ++ " displayed above")
       else
         display_rich_error
           ("Error reading file " ++ file_path ++ ": HTTP "
            ++ Py.str_of_int (status_code response)))
    (except_clauses ("Error reading file " ++ file_path ++ ": ")).

(** What follows the POST of [vscode_create_file] and [vscode_edit_file]:
    [done] on status 200, otherwise the [error] field of the body. *)
Definition after_post (response : Response) (done failed : string) : Prog string :=
  if status_code response =? 200 then
    display_rich_success done
  else
    data <- lift (json_body response) ;;
    error <- lift (PyJson.get data "error" (JStr "Unknown error")) ;;
    display_rich_error (failed ++ PyJson.str error).

Definition vscode_create_file (filename content : string) : Prog string :=
  try_except
    (ensure_vscode_available ;;
     allowed <- call (get_permission FILE_WRITE ("Create file: " ++ filename)) ;;
     if negb allowed then
       display_rich_error "Permission denied for file creation"
     else
       let title := "[yellow]Preview: " ++ filename ++ "[/yellow]" in
       print_syntax_or (JStr content) (inr (PyJson.file_ext filename)) title "yellow"
         (exec (console_print (Panel content title "yellow"))) ;;
       try_except
         (call (requests_get (VSCODE_HTTP_URL ++ "/preview")
                  [("title", JStr (page ++ " New file: " ++ filename));
                   ("filename", JStr filename);
                   ("content", JStr content)]
                  (Some HEADERS) 10) ;;
          Ret tt)
         (fun _ => Ret tt) ;;
       response <- call (requests_post (VSCODE_HTTP_URL ++ "/file/create")
                           (JObj [("path", JStr filename); ("content", JStr content)])
                           (Some HEADERS) 10) ;;
       after_post response
         ("Successfully created file: " ++ filename)
         ("Error creating file " ++ filename ++ ": "))
    (except_clauses ("Error creating file " ++ filename ++ ": ")).

Definition vscode_edit_file (filename old_text new_text : string) : Prog string :=
  try_except
    (ensure_vscode_available ;;
     allowed <- call (get_permission FILE_WRITE ("Edit file: " ++ filename)) ;;
     if negb allowed then
       display_rich_error "Permission denied for file edit operation"
     else
       exec (console_print
               (Panel ("[bold]File:[/bold] " ++ filename ++ nl
                       ++ "[bold red]- Old text:[/bold red]" ++ nl ++ old_text ++ nl ++ nl
                       ++ "[bold green]+ New text:[/bold green]" ++ nl ++ new_text)
                  "[yellow]Proposed Changes[/yellow]" "yellow")) ;;
       try_except
         (call (requests_get (VSCODE_HTTP_URL ++ "/diff")
                  [("left", JStr (filename ++ " (original)"));
                   ("right", JStr (filename ++ " (proposed)"));
                   ("title", JStr ("Edit file: " ++ filename));
                   ("leftContent", JStr old_text);
                   ("rightContent", JStr new_text)]
                  (Some HEADERS) 10) ;;
          Ret tt)
         (fun _ => Ret tt) ;;
       response <- call (requests_post (VSCODE_HTTP_URL ++ "/file/edit")
                           (JObj [("path", JStr filename);
                                  ("oldContent", JStr old_text);
                                  ("newContent", JStr new_text)])
                           (Some HEADERS) 10) ;;
       after_post response
         ("Successfully edited file: " ++ filename)
         ("Error editing file " ++ filename ++ ": "))
    (except_clauses ("Error editing file " ++ filename ++ ": ")).

Definition health_ready : string := "VS Code is available and ready for use".
Definition health_not_ready : string := "VS Code is not available - see requirements above".

Definition status_info (code_available api_available : bool) : string :=
  "[bold cyan]VS Code Health Check:[/bold cyan]" ++ nl ++ nl
  ++ "[bold]Code Command:[/bold] "
  ++ (if code_available then tick ++ " Available" else cross ++ " Not found") ++ nl
  ++ "[bold]Extension API (localhost:8090):[/bold] "
  ++ (if api_available then tick ++ " Connected" else cross ++ " Not accessible") ++ nl
  ++ "[bold]Overall Status:[/bold] "
  ++ (if code_available && api_available then tick ++ " Ready" else cross ++ " Not ready").

Definition help_text (code_available api_available : bool) : string :=
  nl ++ "[dim]To use VS Code tools:[/dim]" ++ nl
  ++ (if negb code_available
      then "- Install VS Code and ensure 'code' command is in PATH" ++ nl else "")
  ++ (if negb api_available
      then "- Start VS Code extension API on localhost:8090" ++ nl else "").

Definition vscode_health_check : Prog string :=
  code_available <- check_code_command ;;
  api_available <- check_vscode_api ;;
  if code_available && api_available then
    exec (console_print
            (Panel (status_info code_available api_available)
               "[green]VS Code Health[/green]" "green")) ;;
    Ret health_ready
  else
    exec (console_print
            (Panel (status_info code_available api_available)
               "[red]VS Code Health[/red]" "red")) ;;
    exec (console_print (Markup (help_text code_available api_available))) ;;
    Ret health_not_ready.

(** ** The exported tools, with the arguments of a call *)

Inductive tool_call : Type :=
| HealthCheck
| GetContext
| GetSelection
| ListFiles (pattern : string)
| ReadFile (file_path : string) (start_line : Z) (end_line : option Z)
| CreateFile (filename content : string)
| EditFile (filename old_text new_text : string).

(** Invoking a member of [VSCODE_TOOLS]. *)
Definition invoke (t : tool_call) : Prog string :=
  match t with
  | HealthCheck => vscode_health_check
  | GetContext => vscode_get_context
  | GetSelection => vscode_get_selection
  | ListFiles pattern => vscode_list_files pattern
  | ReadFile file_path start_line end_line => vscode_read_file file_path start_line end_line
  | CreateFile filename content => vscode_create_file filename content
  | EditFile filename old_text new_text => vscode_edit_file filename old_text new_text
  end.

End Toolstobe.

(* ===================================================================== *)
(** * Part I.e  Observations on runs *)
(* ===================================================================== *)

Module Obs.

Import Toolstobe.

(** ** Weakest preconditions

    [wp ok p Q]: whatever the calls of [p] give back, as long as every
    recorded call satisfies [ok], the trace and the outcome of [p]
    satisfy [Q]. *)
Fixpoint wp {A : Type} (ok : event -> bool) (p : Prog A)
    (Q : list event -> exn + A -> Prop) : Prop :=
  match p with
  | Ret a => Q [] (inr a)
  | Raise e => Q [] (inl e)
  | Vis c k =>
      forall x, ok (record c x) = true ->
                wp ok (k x) (fun tr r => Q (record c x :: tr) r)
  end.

Definition any_event (ev : event) : bool := true.

(** A world all of whose answers satisfy [ok]. *)
Definition answers (ok : event -> bool) (w : World) : Prop :=
  forall (n : nat) (X : Type) (c : Eff X), ok (record c (w n X c)) = true.

(** ** Sample worlds *)

Definition refused : exn := Exception "ConnectionError" "Connection refused".

(** Nothing is installed and nothing listens on the port. *)
Definition world_down : World := fun _ _ c =>
  match c in Eff T return T with
  | subprocess_run _ _ =>
      inl (Exception "FileNotFoundError" "[Errno 2] No such file or directory: 'code'")
  | requests_get _ _ _ _ => inl refused
  | requests_post _ _ _ _ => inl refused
  | socket_socket => inr tt
  | sock_connect_ex _ _ _ => inr 111
  | sock_close => inr tt
  | get_permission _ _ => inr true
  | console_print _ => tt
  | console_print_data _ => inr tt
  end.

(** [code] is installed, permissions are granted, and the service answers
    every request with status [status] and the JSON document [body]. *)
Definition world_up (status : Z) (body : json) : World := fun _ _ c =>
  match c in Eff T return T with
  | subprocess_run _ _ => inr 0
  | requests_get _ _ _ _ => inr {| status_code := status; json_body := inr body |}
  | requests_post _ _ _ _ => inr {| status_code := status; json_body := inr body |}
  | socket_socket => inr tt
  | sock_connect_ex _ _ _ => inr 0
  | sock_close => inr tt
  | get_permission _ _ => inr true
  | console_print _ => tt
  | console_print_data _ => inr tt
  end.

(** As [world_up 200 body], but every request other than the health
    probe is answered with status [status]. *)
Definition world_status (status : Z) (body : json) : World := fun n X c =>
  match c in Eff T return T -> T with
  | requests_get url _ _ _ =>
      fun x =>
        if (url =? VSCODE_HTTP_URL ++ "/health")%string then x
        else inr {| status_code := status; json_body := inr body |}
  | requests_post _ _ _ _ => fun _ => inr {| status_code := status; json_body := inr body |}
  | _ => fun x => x
  end (world_up 200 body n X c).

(** As [world_up 200 body], but every permission is refused. *)
Definition world_denied (body : json) : World := fun n X c =>
  match c in Eff T return T -> T with
  | get_permission _ _ => fun _ => inr false
  | _ => fun x => x
  end (world_up 200 body n X c).


(** ** HTTP requests *)

Definition ENDPOINTS : list string :=
  ["/health"; "/context"; "/selection-context"; "/workspace/files";
   "/file/read"; "/file/create"; "/file/edit"; "/preview"; "/diff"].

(** The URL of an HTTP request. *)
Definition http_url (ev : event) : option string :=
  match ev with
  | EvGet url _ _ _ _ => Some url
  | EvPost url _ _ _ _ => Some url
  | _ => None
  end.

Definition contacts (url : string) (ev : event) : bool :=
  match http_url ev with
  | Some u => (u =? url)%string
  | None => false
  end.

(** An HTTP request goes to one of the nine endpoints of the base URL. *)
Definition known_endpoint (ev : event) : bool :=
  match http_url ev with
  | Some u => existsb (fun path => (u =? VSCODE_HTTP_URL ++ path)%string) ENDPOINTS
  | None => true
  end.

(** A request to a file or preview endpoint. *)
Definition touches_files (ev : event) : bool :=
  existsb (fun path => contacts (VSCODE_HTTP_URL ++ path) ev)
    ["/file/read"; "/file/create"; "/file/edit"; "/preview"; "/diff"].

(** ** Timeouts *)

(** The timeout given to a call that leaves the process. *)
Definition timeout_of (ev : event) : option Z :=
  match ev with
  | EvSubprocess _ t _ => Some t
  | EvGet _ _ _ t _ => Some t
  | EvPost _ _ _ t _ => Some t
  | EvConnect _ _ t _ => Some t
  | _ => None
  end.

(** The timeout is fixed by the kind of call. *)
Definition fixed_timeout (ev : event) : bool :=
  match ev with
  | EvSubprocess _ t _ => t =? 5
  | EvGet url _ _ t _ => t =? (if (url =? VSCODE_HTTP_URL ++ "/health")%string then 3 else 10)
  | EvPost _ _ _ t _ => t =? 10
  | EvConnect _ _ t _ => t =? 2
  | _ => true
  end.

Definition timeout_in_range (ev : event) : bool :=
  match timeout_of ev with
  | Some t => (2 <=? t) && (t <=? 10)
  | None => true
  end.

(** ** Phases of a tool run *)

Inductive phase : Type := Probe | Gate | Request | Output.

Definition phase_of (ev : event) : phase :=
  match ev with
  | EvSubprocess _ _ _ => Probe
  | EvSocket _ => Probe
  | EvConnect _ _ _ _ => Probe
  | EvClose _ => Probe
  | EvGet url _ _ _ _ =>
      if (url =? VSCODE_HTTP_URL ++ "/health")%string then Probe else Request
  | EvPost _ _ _ _ _ => Request
  | EvPermission _ _ _ => Gate
  | EvPrint _ => Output
  | EvPrintData _ _ => Output
  end.

Definition rank (ph : phase) : nat :=
  match ph with
  | Probe => 0
  | Gate => 1
  | Request => 2
  | Output => 3
  end.

Definition is_phase (ph : phase) (ev : event) : bool :=
  (rank (phase_of ev) =? rank ph)%nat.

(** No event is followed by one of an earlier phase. *)
Fixpoint in_order (tr : list event) : bool :=
  match tr with
  | [] => true
  | ev :: rest =>
      forallb (fun later => (rank (phase_of ev) <=? rank (phase_of later))%nat) rest
      && in_order rest
  end.

Definition count (ph : phase) (tr : list event) : nat :=
  length (filter (is_phase ph) tr).

Definition without_output (tr : list event) : list event :=
  filter (fun ev => negb (is_phase Output ev)) tr.

(** The first two calls of every run: [code --version], then GET /health. *)
Definition starts_with_probe (tr : list event) : bool :=
  match tr with
  | EvSubprocess args _ _ :: EvGet url _ _ _ _ :: _ =>
      (if list_eq_dec string_dec args ["code"; "--version"] then true else false)
      && (url =? VSCODE_HTTP_URL ++ "/health")%string
  | _ => false
  end.

(** The socket is tried only after the GET to [/health] raised. *)
Fixpoint socket_is_fallback (tr : list event) : bool :=
  match tr with
  | [] => true
  | EvGet _ _ _ _ (inl _) :: rest => true
  | ev :: rest =>
      match ev with
      | EvSocket _ => false
      | EvConnect _ _ _ _ => false
      | EvClose _ => false
      | _ => socket_is_fallback rest
      end
  end.

(** Whether the tool asks for permission. *)
Definition gated (t : tool_call) : bool :=
  match t with
  | ReadFile _ _ _ => true
  | CreateFile _ _ => true
  | EditFile _ _ _ => true
  | _ => false
  end.

(** ** Permissions *)

Definition asks_permission (ev : event) : bool :=
  match ev with
  | EvPermission _ _ _ => true
  | _ => false
  end.

(** [get_permission] returned [False]. *)
Definition permission_refused (ev : event) : bool :=
  match ev with
  | EvPermission _ _ (inr false) => true
  | _ => false
  end.

(** ** Console output and outcomes *)








(** ** Conditions on what the world answers *)





(** ** The shape of a response body a tool can use *)

Definition is_dict (v : json) : bool :=
  match v with
  | JObj _ => true
  | _ => false
  end.

Definition succeeds {A : Type} (r : exn + A) : bool :=
  match r with
  | inr _ => true
  | inl _ => false
  end.

(** [v.get(key, default)] for a [v] known to be a [dict]. *)
Definition field (v : json) (key : string) (default : json) : json :=
  match v with
  | JObj fields =>
      match PyJson.lookup key fields with
      | Some x => x
      | None => default
      end
  | _ => default
  end.






(** ** What a tool may request, and what counts as a failed call *)

(** The service requests a tool makes, in order, when nothing stops it. *)
Definition planned_requests (t : tool_call) : list string :=
  map (fun path => VSCODE_HTTP_URL ++ path)
    match t with
    | HealthCheck => []
    | GetContext => ["/context"]
    | GetSelection => ["/selection-context"]
    | ListFiles _ => ["/workspace/files"]
    | ReadFile _ _ _ => ["/file/read"]
    | CreateFile _ _ => ["/preview"; "/file/create"]
    | EditFile _ _ _ => ["/diff"; "/file/edit"]
    end.

(** The URLs of the service requests of a trace, in order. *)
Fixpoint request_urls (tr : list event) : list string :=
  match tr with
  | [] => []
  | ev :: rest =>
      match http_url ev with
      | Some u => if is_phase Request ev then u :: request_urls rest else request_urls rest
      | None => request_urls rest
      end
  end.

Fixpoint is_prefix (l1 l2 : list string) : bool :=
  match l1, l2 with
  | [], _ => true
  | a :: r1, b :: r2 => (a =? b)%string && is_prefix r1 r2
  | _ :: _, [] => false
  end.

(** All console output of the tool follows its requests. *)
Definition output_last (t : tool_call) : bool :=
  match t with
  | CreateFile _ _ => false
  | EditFile _ _ _ => false
  | _ => true
  end.









End Obs.

(* ===================================================================== *)
(** * Part II.a  The command line script *)
(* ===================================================================== *)

Section Cli.

Import Test3.

Example int_examples :
  Py.int " 12 " = Some 12 /\ Py.int "-7" = Some (-7) /\ Py.int "1_000" = Some 1000
  /\ Py.int "" = None /\ Py.int "1__0" = None /\ Py.int "x" = None /\ Py.int "+ 5" = None.
Proof. repeat split; reflexivity. Qed.

Example main_examples :
  main ["test3.py"; "-p"; "Ada"] = ["Hello, Ada!"]
  /\ main ["test3.py"; "add"; "2"; "40"] = ["2 + 40 = 42"]
  /\ main ["test3.py"; "add"; "-2"; "007"] = ["-2 + 7 = 5"]
  /\ main ["test3.py"; "-p"; "Ada"; "extra"] = ["Hello, Ada!"]
  /\ main ["test3.py"; "-p"] = [usage]
  /\ main ["test3.py"] = [usage].
Proof. repeat split; reflexivity. Qed.







End Cli.

(* ===================================================================== *)
(** * Part II.b  Reasoning about runs *)
(* ===================================================================== *)

Section Runs.

Import Toolstobe Obs.

Example health_check_with_nothing_installed :
  run world_down O vscode_health_check
  = ([EvSubprocess ["code"; "--version"] 5
        (inl (Exception "FileNotFoundError" "[Errno 2] No such file or directory: 'code'"));
      EvGet "http://localhost:8090/health" [] None 3 (inl refused);
      EvSocket (inr tt);
      EvConnect "localhost" 8090 2 (inr 111);
      EvClose (inr tt);
      EvPrint (Panel (status_info false false) "[red]VS Code Health[/red]" "red");
      EvPrint (Markup (help_text false false))],
     inr "VS Code is not available - see requirements above").
Proof. reflexivity. Qed.

Example get_context_with_an_empty_body :
  result (world_up 200 (JObj [])) vscode_get_context
  = inr ("[bold cyan]VS Code Context:[/bold cyan]" ++ nl
         ++ "[bold]Active File:[/bold] None" ++ nl
         ++ "[bold]Language:[/bold] Unknown" ++ nl
         ++ "[bold]Workspace:[/bold] None" ++ nl
         ++ "[bold]Selection:[/bold] No selection" ++ nl
         ++ "[bold]Open Tabs:[/bold] 0 tabs").
Proof. reflexivity. Qed.

Example read_file_with_status_404 :
  result (world_status 404 (JObj [])) (vscode_read_file "a.py" 1 None)
  = inr "Error reading file a.py: HTTP 404".
Proof. reflexivity. Qed.

Example create_file_with_a_list_for_a_body :
  result (world_status 500 (JArr [])) (vscode_create_file "a.py" "x = 1")
  = inr "Error creating file a.py: 'list' object has no attribute 'get'".
Proof. reflexivity. Qed.

Example str_examples :
  PyJson.str (JObj [("a", JArr [JInt 1; JNull; JBool true]); ("b", JStr "it's")])
  = String.concat "" ["{'a': [1, None, True], 'b': "; String PyJson.quote2 "it's";
                      String PyJson.quote2 "}"]
  /\ PyJson.format_d 3 (JInt 7) = inr "  7"
  /\ PyJson.file_ext "src/main.tar.gz" = "gz"
  /\ PyJson.file_ext "Makefile" = "txt".
Proof. repeat split; reflexivity. Qed.

Lemma wp_run {A : Type} (ok : event -> bool) (w : World) (p : Prog A) :
  answers ok w ->
  forall (Q : list event -> exn + A -> Prop) (n : nat),
    wp ok p Q -> Q (fst (run w n p)) (snd (run w n p)).
Proof.
  intros Hw. induction p as [a|e|X c k IH]; intros Q n H; cbn in *; auto.
  apply (IH _ _ _ (H _ (Hw _ _ _))).
Qed.

Lemma answers_any (w : World) : answers any_event w.
Proof. intros n X c. reflexivity. Qed.

(** What holds of every run, whatever the world. *)
Lemma wp_always {A : Type} (p : Prog A) (Q : list event -> exn + A -> Prop) :
  wp any_event p Q -> forall w, Q (trace w p) (result w p).
Proof. intros H w. exact (wp_run any_event w p (answers_any w) Q O H). Qed.

Lemma wp_mono {A : Type} (ok : event -> bool) (p : Prog A) :
  forall Q Q' : list event -> exn + A -> Prop,
    (forall tr r, Q tr r -> Q' tr r) -> wp ok p Q -> wp ok p Q'.
Proof.
  induction p as [a|e|X c k IH]; intros Q Q' HQ H; cbn in *; auto.
  intros x Hx. apply (IH x _ _ (fun tr r => HQ _ r)). auto.
Qed.

(** The equations of [run] for sequencing and handlers. *)
Lemma run_bind {A B : Type} (w : World) (p : Prog A) (f : A -> Prog B) :
  forall n,
    run w n (bind p f) =
    match snd (run w n p) with
    | inl e => (fst (run w n p), inl e)
    | inr a =>
        let r := run w (n + length (fst (run w n p))) (f a) in
        ((fst (run w n p) ++ fst r)%list, snd r)
    end.
Proof.
  induction p as [a|e|X c k IH]; intros n; cbn.
  - rewrite Nat.add_0_r. destruct (run w n (f a)); reflexivity.
  - reflexivity.
  - rewrite IH. destruct (snd (run w (S n) (k (w n X c)))); cbn; [reflexivity|].
    rewrite Nat.add_succ_r. reflexivity.
Qed.


Lemma get_field (v : json) (key : string) (default : json) :
  is_dict v = true -> PyJson.get v key default = inr (field v key default).
Proof. destruct v; try discriminate. reflexivity. Qed.

End Runs.

(** Symbolic execution of a program under [wp]: normalise, bring the
    next answer into the context, and split on whatever the program
    inspects next, unless the context already tells its value. *)
Ltac split_on x :=
  first
    [ is_var x; destruct x
    | lazymatch x with
      | negb ?b => is_var b; destruct b
      end
    | match goal with
      | E : ?l = _ |- _ =>
          lazymatch x with
          | context [l] => rewrite E
          end
      end
    | lazymatch x with
      | PyJson.get ?v _ _ => rewrite (get_field v) by assumption
      end
    | lazymatch x with
      | context [Z.eqb ?a ?b] => destruct (Z.eqb a b) eqn:?
      end
    | destruct x eqn:? ].

Ltac wp_head p :=
  lazymatch p with
  | Toolstobe.bind ?q _ => wp_head q
  | Toolstobe.try_except ?q _ => wp_head q
  | Toolstobe.lift ?r => split_on r
  | match ?x with _ => _ end => split_on x
  end.

Ltac wp_norm :=
  cbn [Obs.wp Toolstobe.bind Toolstobe.try_except Toolstobe.lift Toolstobe.call Toolstobe.exec
       fst snd negb andb Toolstobe.availability_status Toolstobe.invoke
       Toolstobe.status_code Toolstobe.json_body
       Toolstobe.vscode_health_check Toolstobe.vscode_get_context
       Toolstobe.vscode_get_selection Toolstobe.vscode_list_files
       Toolstobe.vscode_read_file Toolstobe.vscode_create_file Toolstobe.vscode_edit_file
       Toolstobe.ensure_vscode_available Toolstobe.check_vscode_availability
       Toolstobe.check_code_command Toolstobe.check_vscode_api].

Ltac wp_unfold :=
  progress unfold Toolstobe.after_post, Toolstobe.print_syntax_or,
    Toolstobe.display_rich_error, Toolstobe.display_rich_success,
    Toolstobe.except_clauses.

(** [assume x H] is handed each answer [x] with the assumption [H] made
    of it. *)
Ltac wp_step assume :=
  wp_norm;
  first
    [ lazymatch goal with
      | |- Obs.wp _ ?p _ => wp_head p
      | |- forall _, _ =>
          let x := fresh "x" in
          let H := fresh "Hok" in
          intros x H; assume x H;
          repeat match goal with
                 | r : Toolstobe.Response |- _ => destruct r
                 end
      end
    | wp_unfold ].

(** Run every path with the postcondition folded, then hand the leaves
    to [finish]. *)
Ltac wp_paths assume finish :=
  lazymatch goal with
  | |- Obs.wp _ _ ?Q =>
      let post := fresh "post" in
      set (post := Q);
      repeat (wp_step assume);
      subst post; cbv beta; finish
  end.

Ltac forget x H := clear H; try destruct x as [?|x].

(** Every path of the program, with nothing assumed of the answers. *)
Ltac wp_exec finish := wp_paths forget finish.

(* ===================================================================== *)
(** * Part II.c  What holds of every run of every tool *)
(* ===================================================================== *)

Section EveryRun.

Import Toolstobe Obs.

(** One symbolic execution of the seven tools gives the properties of
    their traces that hold whatever the world answers. *)
Lemma every_run (t : tool_call) :
  wp any_event (invoke t)
    (fun tr r =>
       forallb fixed_timeout tr = true
       /\ forallb known_endpoint tr = true
       /\ (starts_with_probe tr = true
           /\ socket_is_fallback tr = true
           /\ in_order (without_output tr) = true
           /\ (count Gate tr <=? (if gated t then 1 else 0))%nat = true
           /\ is_prefix (request_urls tr) (planned_requests t) = true
           /\ (if output_last t then in_order tr else true) = true)
       /\ (if gated t then true else negb (existsb asks_permission tr)) = true
       /\ succeeds r = true).
Proof. destruct t; wp_exec ltac:(repeat split; vm_compute; reflexivity). Qed.

Lemma fixed_timeout_in_range (ev : event) :
  fixed_timeout ev = true -> timeout_in_range ev = true.
Proof.
  destruct ev; cbn; try reflexivity.
  - intros H. apply Z.eqb_eq in H. subst. reflexivity.
  - destruct (_ =? _)%string; intros H; apply Z.eqb_eq in H; subst; reflexivity.
  - intros H. apply Z.eqb_eq in H. subst. reflexivity.
  - intros H. apply Z.eqb_eq in H. subst. reflexivity.
Qed.

(** C6: every call that leaves the process (the subprocess probe, each
    HTTP request, the socket probe) carries a timeout fixed by the kind
    of call (5 s for [code --version], 3 s for GET /health, 2 s for the
    socket, 10 s for every other request), hence between 2 and 10
    seconds.  Calls are synchronous by construction: a program goes on
    only with the outcome of the call it made. *)
Theorem timeouts_fixed_and_short (t : tool_call) (w : World) :
  forallb fixed_timeout (trace w (invoke t)) = true
  /\ Forall (fun ev => forall s, timeout_of ev = Some s -> 2 <= s <= 10)
       (trace w (invoke t)).
Proof.
  destruct (wp_always _ _ (every_run t) w) as (H & _).
  split; [exact H|].
  rewrite forallb_forall in H. apply Forall_forall. intros ev Hin s Hs.
  pose proof (fixed_timeout_in_range ev (H ev Hin)) as Hr.
  unfold timeout_in_range in Hr. rewrite Hs in Hr.
  apply andb_prop in Hr. destruct Hr as [H1 H2].
  apply Z.leb_le in H1. apply Z.leb_le in H2. lia.
Qed.

Lemma timeouts_fixed_and_short_witness :
  forallb fixed_timeout (trace (world_up 200 (JObj [])) (invoke (CreateFile "a.py" "x = 1")))
  = true
  /\ Forall (fun ev => forall s, timeout_of ev = Some s -> 2 <= s <= 10)
       (trace (world_up 200 (JObj [])) (invoke (CreateFile "a.py" "x = 1"))).
Proof. exact (timeouts_fixed_and_short (CreateFile "a.py" "x = 1") (world_up 200 (JObj []))). Defined.

(** C7: every HTTP request goes to [http://localhost:8090] followed by one
    of the nine paths, and each of the nine is contacted by some tool in
    some world. *)
Theorem endpoints_exact :
  (forall (t : tool_call) (w : World) (ev : event) (url : string),
      In ev (trace w (invoke t)) -> http_url ev = Some url ->
      exists path, In path ENDPOINTS /\ url = VSCODE_HTTP_URL ++ path)
  /\ Forall (fun path =>
               exists (t : tool_call) (w : World),
                 existsb (contacts (VSCODE_HTTP_URL ++ path)) (trace w (invoke t)) = true)
       ENDPOINTS.
Proof.
  split.
  - intros t w ev url Hin Hurl.
    destruct (wp_always _ _ (every_run t) w) as (_ & H & _).
    rewrite forallb_forall in H. specialize (H ev Hin).
    unfold known_endpoint in H. rewrite Hurl in H.
    apply existsb_exists in H. destruct H as (path & Hp & E).
    apply String.eqb_eq in E. eauto.
  - repeat constructor.
    + exists HealthCheck, (world_up 200 (JObj [])). reflexivity.
    + exists GetContext, (world_up 200 (JObj [])). reflexivity.
    + exists GetSelection, (world_up 200 (JObj [])). reflexivity.
    + exists (ListFiles "*"), (world_up 200 (JObj [])). reflexivity.
    + exists (ReadFile "a.py" 1 None), (world_up 200 (JObj [])). reflexivity.
    + exists (CreateFile "a.py" ""), (world_up 200 (JObj [])). reflexivity.
    + exists (EditFile "a.py" "" ""), (world_up 200 (JObj [])). reflexivity.
    + exists (CreateFile "a.py" ""), (world_up 200 (JObj [])). reflexivity.
    + exists (EditFile "a.py" "" ""), (world_up 200 (JObj [])). reflexivity.
Qed.

Lemma endpoints_exact_witness :
  exists path,
    In path ENDPOINTS /\ "http://localhost:8090/context" = VSCODE_HTTP_URL ++ path.
Proof.
  refine (proj1 endpoints_exact GetContext (world_up 200 (JObj []))
            (EvGet "http://localhost:8090/context" [] (Some HEADERS) 10
               (inr {| status_code := 200; json_body := inr (JObj []) |}))
            "http://localhost:8090/context" _ eq_refl).
  vm_compute. do 2 right. left. reflexivity.
Defined.




End EveryRun.

(* ===================================================================== *)
(** * Part II.d  The availability check *)
(* ===================================================================== *)

Section Availability.

Import Toolstobe Obs.

Lemma check_code_command_returns (w : World) (n : nat) :
  exists b : bool, snd (run w n check_code_command) = inr b.
Proof.
  apply (wp_run any_event w check_code_command (answers_any w)
           (fun _ r => exists b : bool, r = inr b) n).
  wp_exec ltac:(eexists; reflexivity).
Qed.

Lemma check_vscode_api_returns (w : World) (n : nat) :
  exists b : bool, snd (run w n check_vscode_api) = inr b.
Proof.
  apply (wp_run any_event w check_vscode_api (answers_any w)
           (fun _ r => exists b : bool, r = inr b) n).
  wp_exec ltac:(eexists; reflexivity).
Qed.

(** The run of [check_vscode_availability] is the run of
    [check_code_command] followed by the run of [check_vscode_api]. *)
Lemma availability_run (w : World) :
  exists (code_available api_available : bool),
    result w check_code_command = inr code_available
    /\ snd (run w (length (trace w check_code_command)) check_vscode_api) = inr api_available
    /\ run w O check_vscode_availability
       = ((trace w check_code_command
           ++ fst (run w (length (trace w check_code_command)) check_vscode_api))%list,
          inr (availability_status code_available api_available)).
Proof.
  destruct (check_code_command_returns w O) as [c Hc].
  destruct (check_vscode_api_returns w (length (trace w check_code_command))) as [a Ha].
  exists c, a. repeat split; auto.
  unfold check_vscode_availability, trace in *. rewrite run_bind, Hc. cbn zeta.
  rewrite run_bind. cbn [Nat.add] in *. rewrite Ha. cbn.
  rewrite app_nil_r. reflexivity.
Qed.

Lemma ensure_run (w : World) :
  run w O ensure_vscode_available =
  (trace w check_vscode_availability,
   match result w check_vscode_availability with
   | inr (true, _) => inr tt
   | inr (false, message) => inl (VSCodeAvailabilityError message)
   | inl e => inl e
   end).
Proof.
  unfold ensure_vscode_available, trace, result. rewrite run_bind.
  destruct (run w O check_vscode_availability) as [tr [e|[[|] message]]]; cbn;
    rewrite ?app_nil_r; reflexivity.
Qed.

Lemma messages_differ :
  msg_neither <> msg_no_command /\ msg_neither <> msg_no_api /\ msg_no_command <> msg_no_api.
Proof. repeat split; discriminate. Qed.

(** C9: [check_vscode_availability] returns [(True, message)] exactly
    when both checks return [True]; [ensure_vscode_available] raises
    [VSCodeAvailabilityError] exactly when one of them returns [False],
    and the message tells which: the three messages (both failed, only
    the command, only the API) are pairwise different. *)
Theorem availability_iff_both_checks (w : World) :
  exists (code_available api_available : bool) (message : string),
    result w check_code_command = inr code_available
    /\ snd (run w (length (trace w check_code_command)) check_vscode_api) = inr api_available
    /\ result w check_vscode_availability = inr (code_available && api_available, message)
    /\ result w ensure_vscode_available
       = (if code_available && api_available then inr tt
          else inl (VSCodeAvailabilityError message))
    /\ message
       = (if code_available
          then if api_available then msg_available else msg_no_api
          else if api_available then msg_no_command else msg_neither)
    /\ msg_neither <> msg_no_command /\ msg_neither <> msg_no_api
    /\ msg_no_command <> msg_no_api.
Proof.
  destruct (availability_run w) as (c & a & Hc & Ha & Hrun).
  exists c, a, (snd (availability_status c a)).
  split; [exact Hc|]. split; [exact Ha|].
  assert (Hres : result w check_vscode_availability
                 = inr (c && a, snd (availability_status c a))).
  { unfold result. rewrite Hrun. destruct c, a; reflexivity. }
  split; [exact Hres|].
  split.
  { unfold result at 1. rewrite ensure_run, Hres. destruct (c && a); reflexivity. }
  split; [destruct c, a; reflexivity|].
  exact messages_differ.
Qed.

End Availability.
(* ===================================================================== *)
(** * Part II.e  The permission gate and the optional preview *)
(* ===================================================================== *)

Section Gate.

Import Toolstobe Obs.

Ltac refused_leaf :=
  intros Hrefused; vm_compute in Hrefused;
  first [discriminate Hrefused | split; [reflexivity | vm_compute; reflexivity]].

Lemma read_refused_wp (file_path : string) (start_line : Z) (end_line : option Z) :
  wp any_event (vscode_read_file file_path start_line end_line)
    (fun tr r =>
       existsb permission_refused tr = true ->
       r = inr "Permission denied for file read operation"
       /\ existsb touches_files tr = false).
Proof. wp_exec ltac:(refused_leaf). Qed.

Lemma create_refused_wp (filename content : string) :
  wp any_event (vscode_create_file filename content)
    (fun tr r =>
       existsb permission_refused tr = true ->
       r = inr "Permission denied for file creation"
       /\ existsb touches_files tr = false).
Proof. wp_exec ltac:(refused_leaf). Qed.

Lemma edit_refused_wp (filename old_text new_text : string) :
  wp any_event (vscode_edit_file filename old_text new_text)
    (fun tr r =>
       existsb permission_refused tr = true ->
       r = inr "Permission denied for file edit operation"
       /\ existsb touches_files tr = false).
Proof. wp_exec ltac:(refused_leaf). Qed.

(** C8: when [get_permission] returns [False], [vscode_read_file],
    [vscode_create_file] and [vscode_edit_file] return their
    [Permission denied ...] string and make no request to /file/read,
    /file/create, /file/edit, /preview or /diff; the other four tools
    never call [get_permission]. *)
Theorem permission_gate (w : World) :
  (forall file_path start_line end_line,
      existsb permission_refused (trace w (vscode_read_file file_path start_line end_line)) = true ->
      result w (vscode_read_file file_path start_line end_line)
      = inr "Permission denied for file read operation"
      /\ existsb touches_files (trace w (vscode_read_file file_path start_line end_line)) = false)
  /\ (forall filename content,
         existsb permission_refused (trace w (vscode_create_file filename content)) = true ->
         result w (vscode_create_file filename content)
         = inr "Permission denied for file creation"
         /\ existsb touches_files (trace w (vscode_create_file filename content)) = false)
  /\ (forall filename old_text new_text,
         existsb permission_refused (trace w (vscode_edit_file filename old_text new_text)) = true ->
         result w (vscode_edit_file filename old_text new_text)
         = inr "Permission denied for file edit operation"
         /\ existsb touches_files (trace w (vscode_edit_file filename old_text new_text)) = false)
  /\ existsb asks_permission (trace w vscode_get_context) = false
  /\ existsb asks_permission (trace w vscode_get_selection) = false
  /\ (forall pattern, existsb asks_permission (trace w (vscode_list_files pattern)) = false)
  /\ existsb asks_permission (trace w vscode_health_check) = false.
Proof.
  assert (U : forall t, gated t = false -> existsb asks_permission (trace w (invoke t)) = false).
  { intros t Hg. destruct (wp_always _ _ (every_run t) w) as (_ & _ & _ & H & _).
    rewrite Hg in H. apply negb_true_iff in H. exact H. }
  repeat split.
  - apply (wp_always _ _ (read_refused_wp file_path start_line end_line) w H).
  - apply (wp_always _ _ (read_refused_wp file_path start_line end_line) w H).
  - apply (wp_always _ _ (create_refused_wp filename content) w H).
  - apply (wp_always _ _ (create_refused_wp filename content) w H).
  - apply (wp_always _ _ (edit_refused_wp filename old_text new_text) w H).
  - apply (wp_always _ _ (edit_refused_wp filename old_text new_text) w H).
  - exact (U GetContext eq_refl).
  - exact (U GetSelection eq_refl).
  - intros pattern. exact (U (ListFiles pattern) eq_refl).
  - exact (U HealthCheck eq_refl).
Qed.

Lemma permission_gate_witness :
  result (world_denied (JObj [])) (vscode_create_file "a.py" "x = 1")
  = inr "Permission denied for file creation"
  /\ existsb touches_files (trace (world_denied (JObj [])) (vscode_create_file "a.py" "x = 1"))
     = false.
Proof.
  exact (proj1 (proj2 (permission_gate (world_denied (JObj [])))) "a.py" "x = 1" eq_refl).
Defined.

End Gate.

Section Preview.

Import Toolstobe Obs.








End Preview.

(* ===================================================================== *)
(** * Part II.f  Failures become strings *)
(* ===================================================================== *)

Section Failures.

Import Toolstobe Obs.











End Failures.

(* ===================================================================== *)
(** * Part II.g  The file listing *)
(* ===================================================================== *)

Section Listing.

Import Toolstobe Obs.











End Listing.

(* ===================================================================== *)
(** * Part II.h  Error strings and success strings *)
(* ===================================================================== *)

Section Outcomes.

Import Toolstobe Obs.















End Outcomes.
